(** * nrewebservices.ldbws.webservice: the LDBWS session, in Rocq

    A shallow embedding of [src/nrewebservices/ldbws/webservice.py]: the
    [Session] initializer and [Session.get_station_board].

    Python values are dynamically typed, so arguments are [pyval]s and the
    tests of the source ([if x:], [x is not None]) are the functions [truthy]
    and [is_not_None].  The keyword dictionary [params] is a
    [gmap string pyval].  Exceptions, the log, the process environment and
    the requests sent to the server are threaded through a small state and
    error monad [M]. *)

From stdpp Require Import gmap strings list fin_maps.
From Stdlib Require Import ZArith.

Local Open Scope Z_scope.
Local Open Scope string_scope.
Local Open Scope list_scope.

(** ** Values *)

Inductive pyval : Type :=
  | VNone
  | VBool (b : bool)
  | VInt (n : Z)
  | VStr (s : string).

#[global] Instance pyval_eq_dec : EqDecision pyval.
Proof. solve_decision. Defined.

(** Truth value testing, as [if x:] and [not x] do it. *)
Definition truthy (v : pyval) : bool :=
  match v with
  | VNone => false
  | VBool b => b
  | VInt n => negb (Z.eqb n 0)
  | VStr s => negb (String.eqb s "")
  end.

(** [x is not None]. *)
Definition is_not_None (v : pyval) : bool :=
  match v with
  | VNone => false
  | _ => true
  end.

(** ** Exceptions *)

Inductive exn_class : Type :=
  | BaseException
  | Exception
  | NameError
  | LookupError
  | KeyError
  | AttributeError
  | ValueError
  | ForeignError (name : string).   (* a class of suds or of the transport *)

#[global] Instance exn_class_eq_dec : EqDecision exn_class.
Proof. solve_decision. Defined.

(** The method resolution order of each class, most specific first. *)
Definition mro (c : exn_class) : list exn_class :=
  match c with
  | BaseException => [BaseException]
  | Exception => [Exception; BaseException]
  | NameError => [NameError; Exception; BaseException]
  | LookupError => [LookupError; Exception; BaseException]
  | KeyError => [KeyError; LookupError; Exception; BaseException]
  | AttributeError => [AttributeError; Exception; BaseException]
  | ValueError => [ValueError; Exception; BaseException]
  | ForeignError n => [ForeignError n; Exception; BaseException]
  end.

Definition issubclass (c d : exn_class) : bool := bool_decide (d ∈ mro c).

Record exn : Type := mkExn { exn_cls : exn_class; exn_arg : string }.

#[global] Instance exn_eq_dec : EqDecision exn.
Proof. solve_decision. Defined.

(** ** The world the module runs in *)

(** The three SOAP operations of the [LDBServiceSoap] port that the module
    uses. *)
Inductive operation : Type :=
  | GetArrivalDepartureBoard
  | GetDepartureBoard
  | GetArrivalBoard.

#[global] Instance operation_eq_dec : EqDecision operation.
Proof. solve_decision. Defined.

Record World : Type := mkWorld {
  environ : gmap string string;                       (* os.environ *)
  warnings : list string;                             (* records of log.warn *)
  requests : list (operation * gmap string pyval)     (* calls sent to the server *)
}.

(** ** The monad of effects *)

Inductive Outcome (A : Type) : Type :=
  | Return (a : A)
  | Raise (e : exn).
Arguments Return {A} a.
Arguments Raise {A} e.

Definition M (A : Type) : Type := World → Outcome A * World.

#[global] Instance M_ret : MRet M := λ A a w, (Return a, w).

#[global] Instance M_bind : MBind M := λ A B f m w,
  match m w with
  | (Return a, w') => f a w'
  | (Raise e, w') => (Raise e, w')
  end.

Definition raise {A} (c : exn_class) (msg : string) : M A :=
  λ w, (Raise (mkExn c msg), w).

(** An outcome that needs no world (a library call whose only effect on this
    module is its result). *)
Definition lift {A} (o : Outcome A) : M A := λ w, (o, w).

(** [try: body except cls: handler].  The handler runs when the class of
    the raised exception is [cls] or one of its subclasses; any other
    exception passes through. *)
Definition try_except {A} (body : M A) (cls : exn_class) (handler : M A) : M A :=
  λ w,
    match body w with
    | (Return a, w') => (Return a, w')
    | (Raise e, w') =>
        if issubclass (exn_cls e) cls then handler w' else (Raise e, w')
    end.

(** [log.warn(msg)]. *)
Definition log_warn (msg : string) : M unit :=
  λ w, (Return (),
        {| environ := environ w;
           warnings := warnings w ++ [msg];
           requests := requests w |}).

(** ** Names of the module *)

(** The names bound at the top level of [webservice.py] (lines 1 to 11): the
    imports, [log], [LDBWS_NAMESPACE] and the class itself.  Every name the
    module uses and binds here, or that is a builtin, is resolved in this
    file to its Rocq definition; [load_global] is for a name that may have
    no binding. *)
Definition module_globals : list string :=
  ["StationBoard"; "Client"; "Element"; "logging"; "log"; "LDBWS_NAMESPACE";
   "Session"].

(** The builtins the module refers to. *)
Definition builtins : list string :=
  ["object"; "AttributeError"; "ValueError"; "None"; "True"; "False"].

(** Loading a global name: the module's globals, then the builtins, else
    [NameError]. *)
Definition load_global (globals : list string) (name : string) : M unit :=
  if bool_decide (name ∈ globals) || bool_decide (name ∈ builtins)
  then mret ()
  else raise NameError ("name '" +:+ name +:+ "' is not defined").

(** [os.environ[key]], once [os] is loaded: [KeyError] on a missing key. *)
Definition environ_getitem (key : string) : M pyval :=
  λ w,
    match environ w !! key with
    | Some v => (Return (VStr v), w)
    | None => (Raise (mkExn KeyError key), w)
    end.

(** ** The SOAP client (suds) *)

Definition LDBWS_NAMESPACE : string * string :=
  ("com", "http://thalesgroup.com/RTTI/2010-11-01/ldb/commontypes").

#[local] Set Warnings "-register-all".

(** [suds.sax.element.Element]: a name, a namespace, a text and children. *)
Inductive Element : Type :=
  | mkElement (name : string) (ns : string * string)
              (text : option pyval) (children : list Element).

Definition Element_new (name : string) (ns : string * string) : Element :=
  mkElement name ns None [].

Definition setText (e : Element) (v : pyval) : Element :=
  match e with
  | mkElement name ns _ children => mkElement name ns (Some v) children
  end.

Definition append (e child : Element) : Element :=
  match e with
  | mkElement name ns text children => mkElement name ns text (children ++ [child])
  end.

Definition ERR_NO_WSDL : string :=
  "LDBWS WSDL must be either explicitly provided to the Session initializer or via the environment variable NRE_LDBWS_WSDL.".

Definition ERR_NO_API_KEY : string :=
  "LDBWS API key must be either explicitly provided to the Session initializer or via the environment variable NRE_LDBWS_API_KEY.".

Definition ERR_NO_BOARD : string :=
  "When calling get_station_board, either include_departures or include_arrivals must be set to True.".

Definition WARN_BOTH_FILTERS : string :=
  "get_station_board() can only be filtered on one of from_filter_crs and to_filter_crs. Since both are provided, using only to_filter_crs".

Section Webservice.

(** What the server answers, and the wrapper of [.responses] (a module of
    the repository that this file does not embed). *)
Variable soap_response : Type.
Variable StationBoard : Type.
Variable StationBoard_new : soap_response → Outcome StationBoard.

(** A port of the service: each operation, applied to keyword arguments,
    answers or raises. *)
Definition Port : Type := operation → gmap string pyval → Outcome soap_response.

(** A suds client with the options this module sets. *)
Record SoapClient : Type := mkSoapClient {
  service_LDBServiceSoap : Port;
  opt_timeout : option pyval;
  opt_soapheaders : option Element
}.

(** [Client(wsdl)]: fetches and parses the WSDL; may raise. *)
Variable Client : pyval → Outcome SoapClient.

Definition set_timeout (c : SoapClient) (t : pyval) : SoapClient :=
  {| service_LDBServiceSoap := service_LDBServiceSoap c;
     opt_timeout := Some t;
     opt_soapheaders := opt_soapheaders c |}.

Definition set_soapheaders (c : SoapClient) (h : Element) : SoapClient :=
  {| service_LDBServiceSoap := service_LDBServiceSoap c;
     opt_timeout := opt_timeout c;
     opt_soapheaders := Some h |}.

Record Session : Type := mkSession {
  _soap_client : SoapClient;
  _service : Port
}.

(** Lines 46-50 and 52-56: [if not v: try: v = os.environ[key] except
    AttributeError: raise ValueError(msg)]. *)
Definition from_environment (globals : list string)
    (v : pyval) (key msg : string) : M pyval :=
  if negb (truthy v) then
    try_except
      (load_global globals "os" ;; environ_getitem key)
      AttributeError
      (raise ValueError msg)
  else mret v.

(** [Session.__init__], run with the given global names. *)
Definition Session_init_in (globals : list string)
    (wsdl api_key timeout : pyval) : M Session :=
  wsdl ← from_environment globals wsdl "NRE_LDBWS_WSDL" ERR_NO_WSDL;
  api_key ← from_environment globals api_key "NRE_LDBWS_API_KEY" ERR_NO_API_KEY;
  client ← lift (Client wsdl);
  let client := set_timeout client timeout in
  let service := service_LDBServiceSoap client in
  let access_token := Element_new "AccessToken" LDBWS_NAMESPACE in
  let access_token_value := Element_new "TokenValue" LDBWS_NAMESPACE in
  let access_token_value := setText access_token_value api_key in
  let access_token := append access_token access_token_value in
  let client := set_soapheaders client access_token in
  mret {| _soap_client := client; _service := service |}.

(** [Session.__init__] in the module as it is written. *)
Definition Session_init : pyval → pyval → pyval → M Session :=
  Session_init_in module_globals.

(** The defaults of the two signatures (lines 21 and 70-71). *)
Definition default_wsdl : pyval := VNone.
Definition default_api_key : pyval := VNone.
Definition default_timeout : pyval := VInt 5.
Definition default_rows : pyval := VInt 10.
Definition default_include_departures : pyval := VBool true.
Definition default_include_arrivals : pyval := VBool false.
Definition default_from_filter_crs : pyval := VNone.
Definition default_to_filter_crs : pyval := VNone.
Definition default_time_offset : pyval := VNone.
Definition default_time_window : pyval := VNone.

(** Line 146, the call of [query] on the keyword dictionary: one request
    goes to the server. *)
Definition invoke (self : Session) (query : operation)
    (params : gmap string pyval) : M soap_response :=
  λ w, (_service self query params,
        {| environ := environ w;
           warnings := warnings w;
           requests := requests w ++ [(query, params)] |}).

(** [Session.get_station_board]. *)
Definition get_station_board (self : Session)
    (crs rows include_departures include_arrivals
     from_filter_crs to_filter_crs time_offset time_window : pyval)
    : M StationBoard :=
  query ←
    (if truthy include_departures && truthy include_arrivals then
       mret GetArrivalDepartureBoard
     else if truthy include_departures then
       mret GetDepartureBoard
     else if truthy include_arrivals then
       mret GetArrivalBoard
     else
       raise ValueError ERR_NO_BOARD);
  let params : gmap string pyval := ∅ in
  let params := <["crs" := crs]> params in
  let params := <["numRows" := rows]> params in
  params ←
    (if truthy to_filter_crs then
       (if truthy from_filter_crs then log_warn WARN_BOTH_FILTERS else mret ()) ;;
       let params := <["filterCrs" := to_filter_crs]> params in
       let params := <["filterType" := VStr "to"]> params in
       mret params
     else if truthy from_filter_crs then
       let params := <["filterCrs" := from_filter_crs]> params in
       let params := <["filterType" := VStr "from"]> params in
       mret params
     else
       mret params);
  let params :=
    if is_not_None time_offset then <["timeOffset" := time_offset]> params
    else params in
  let params :=
    if is_not_None time_window then <["timeWindow" := time_window]> params
    else params in
  soap_response ← invoke self query params;
  lift (StationBoard_new soap_response).

End Webservice.

Arguments Port soap_response : clear implicits.
Arguments mkSoapClient {soap_response} _ _ _.
Arguments mkSession {soap_response} _ _.
Arguments _service {soap_response} _ _ _.
Arguments _soap_client {soap_response} _.
Arguments Session_init_in {soap_response} Client globals wsdl api_key timeout _.
Arguments Session_init {soap_response} Client wsdl api_key timeout _.
Arguments invoke {soap_response} self query params _.
Arguments get_station_board {soap_response StationBoard} StationBoard_new self
  crs rows include_departures include_arrivals from_filter_crs to_filter_crs
  time_offset time_window _.

(** ** What a call sends, as pure functions

    The operation that lines 118-125 select and the dictionary that lines
    128-142 build, written without the monad.  [get_station_board_sends]
    below proves that they are what [get_station_board] sends. *)

Definition selected_operation (include_departures include_arrivals : pyval)
    : option operation :=
  if truthy include_departures && truthy include_arrivals then
    Some GetArrivalDepartureBoard
  else if truthy include_departures then Some GetDepartureBoard
  else if truthy include_arrivals then Some GetArrivalBoard
  else None.

Definition sent_params
    (crs rows from_filter_crs to_filter_crs time_offset time_window : pyval)
    : gmap string pyval :=
  let p : gmap string pyval := <["numRows" := rows]> (<["crs" := crs]> ∅) in
  let p :=
    if truthy to_filter_crs then
      <["filterType" := VStr "to"]> (<["filterCrs" := to_filter_crs]> p)
    else if truthy from_filter_crs then
      <["filterType" := VStr "from"]> (<["filterCrs" := from_filter_crs]> p)
    else p in
  let p := if is_not_None time_offset then <["timeOffset" := time_offset]> p else p in
  if is_not_None time_window then <["timeWindow" := time_window]> p else p.

Definition sent_warnings (from_filter_crs to_filter_crs : pyval) : list string :=
  if truthy to_filter_crs && truthy from_filter_crs then [WARN_BOTH_FILTERS] else [].

(** A value occurs in a dictionary when some key is bound to it. *)
Definition occurs_in (v : pyval) (params : gmap string pyval) : Prop :=
  ∃ k, params !! k = Some v.

(** The outcome of a call whose request went out: the wrapped answer of the
    server, or what the server (or the wrapper) raised. *)
Definition wrapped {R B} (wrap : R → Outcome B) (answer : Outcome R) : Outcome B :=
  match answer with
  | Return x => wrap x
  | Raise e => Raise e
  end.

(** ** Sample worlds and servers *)

Definition quiet_world : World := mkWorld ∅ [] [].

Definition configured_world : World :=
  mkWorld {[ "NRE_LDBWS_WSDL" := "https://example.org/wsdl.aspx?ver=2016-02-16";
             "NRE_LDBWS_API_KEY" := "0123-4567" ]} [] [].

(** A server that answers every request. *)
Definition answering_port : Port string := λ _ _, Return "board".

(** A server that faults on every request. *)
Definition fault : exn := mkExn (ForeignError "WebFault") "Server raised fault".
Definition faulting_port : Port string := λ _ _, Raise fault.

Definition session_of (port : Port string) : Session string :=
  mkSession (mkSoapClient port (Some default_timeout) None) port.

Definition answering_Client : pyval → Outcome (SoapClient string) :=
  λ _, Return (mkSoapClient answering_port None None).

Definition board_of : string → Outcome string := Return.

(** A client constructor whose fetch of the WSDL fails. *)
Definition fetch_error : exn :=
  mkExn (ForeignError "URLError") "<urlopen error timed out>".
Definition failing_Client : pyval → Outcome (SoapClient string) :=
  λ _, Raise fetch_error.

(** A wrapper that rejects every answer. *)
Definition wrap_error : exn :=
  mkExn AttributeError "'NoneType' object has no attribute 'crs'".
Definition rejecting_board_of : string → Outcome string := λ _, Raise wrap_error.

(** A server that echoes the station of the request when it has one. *)
Definition echoing_port : Port string := λ _ params,
  match params !! "crs" with
  | Some (VStr s) => Return s
  | _ => Raise fault
  end.

Definition sample_wsdl : pyval :=
  VStr "https://example.org/wsdl.aspx?ver=2016-02-16".

(** * Properties *)

(** ** Exceptions and handlers *)

Lemma issubclass_NameError_AttributeError :
  issubclass NameError AttributeError = false.
Proof. reflexivity. Qed.

Lemma issubclass_KeyError_AttributeError :
  issubclass KeyError AttributeError = false.
Proof. reflexivity. Qed.

(** A handler does not see an exception of a class outside its own. *)
Lemma try_except_passes {A} (body handler : M A) cls e w w' :
  body w = (Raise e, w') →
  issubclass (exn_cls e) cls = false →
  try_except body cls handler w = (Raise e, w').
Proof.
  intros Hbody Hcls. unfold try_except. rewrite Hbody, Hcls. reflexivity.
Qed.

Lemma load_global_os_unbound w :
  load_global module_globals "os" w
  = (Raise (mkExn NameError "name 'os' is not defined"), w).
Proof. reflexivity. Qed.

Lemma load_global_bound globals name w :
  name ∈ globals → load_global globals name w = (Return (), w).
Proof.
  intros Hin. unfold load_global.
  rewrite (bool_decide_eq_true_2 _ Hin). reflexivity.
Qed.

(** ** The fallback on the environment (lines 46-56) *)

(** In the module as written, a falsy argument ends in [NameError]: [os] is
    never imported, and [except AttributeError] does not catch it. *)
Lemma from_environment_falsy v key msg w :
  truthy v = false →
  from_environment module_globals v key msg w
  = (Raise (mkExn NameError "name 'os' is not defined"), w).
Proof.
  intros Hv. unfold from_environment. rewrite Hv. cbn [negb].
  apply try_except_passes; [| reflexivity].
  unfold mbind, M_bind. rewrite load_global_os_unbound. reflexivity.
Qed.

(** With [os] bound, a missing variable ends in [KeyError], which the
    handler does not catch either. *)
Lemma from_environment_missing globals v key msg w :
  "os" ∈ globals →
  truthy v = false →
  environ w !! key = None →
  from_environment globals v key msg w = (Raise (mkExn KeyError key), w).
Proof.
  intros Hos Hv Hkey. unfold from_environment. rewrite Hv. cbn [negb].
  apply try_except_passes; [| reflexivity].
  pose proof (load_global_bound _ _ w Hos) as Hload.
  unfold mbind, M_bind. rewrite Hload.
  unfold environ_getitem. rewrite Hkey. reflexivity.
Qed.

Lemma from_environment_present globals v key msg w s :
  "os" ∈ globals →
  truthy v = false →
  environ w !! key = Some s →
  from_environment globals v key msg w = (Return (VStr s), w).
Proof.
  intros Hos Hv Hkey. unfold from_environment, try_except. rewrite Hv. cbn [negb].
  cbv beta iota. pose proof (load_global_bound _ _ w Hos) as Hload.
  unfold mbind, M_bind. rewrite Hload.
  unfold environ_getitem. rewrite Hkey. reflexivity.
Qed.

Lemma from_environment_truthy globals v key msg w :
  truthy v = true → from_environment globals v key msg w = (Return v, w).
Proof. intros Hv. unfold from_environment. rewrite Hv. reflexivity. Qed.

(** No path through the fallback raises [ValueError]. *)
Lemma from_environment_never_ValueError globals v key msg w e w' :
  from_environment globals v key msg w = (Raise e, w') →
  exn_cls e ≠ ValueError.
Proof.
  unfold from_environment, try_except, mbind, M_bind, load_global,
    environ_getitem, raise, mret, M_ret.
  destruct (truthy v); simpl; [discriminate |].
  destruct (bool_decide ("os" ∈ globals)); simpl.
  - destruct (environ w !! key); simpl; [discriminate |].
    intros [= <- <-]. discriminate.
  - intros [= <- <-]. discriminate.
Qed.

(** ** Session initialization *)

Section InitProperties.

Context {soap_response : Type}.
Variable Client : pyval → Outcome (SoapClient soap_response).

(** No WSDL argument: the initializer stops at line 48, whatever the
    environment holds. *)
Lemma Session_init_falsy_wsdl wsdl api_key timeout w :
  truthy wsdl = false →
  Session_init Client wsdl api_key timeout w
  = (Raise (mkExn NameError "name 'os' is not defined"), w).
Proof.
  intros Hwsdl. unfold Session_init, Session_init_in, mbind, M_bind.
  rewrite (from_environment_falsy _ _ _ _ Hwsdl). reflexivity.
Qed.

(** A WSDL argument but no API key: the initializer stops at line 54. *)
Lemma Session_init_falsy_api_key wsdl api_key timeout w :
  truthy wsdl = true →
  truthy api_key = false →
  Session_init Client wsdl api_key timeout w
  = (Raise (mkExn NameError "name 'os' is not defined"), w).
Proof.
  intros Hwsdl Hkey. unfold Session_init, Session_init_in, mbind, M_bind.
  rewrite (from_environment_truthy _ _ _ _ _ Hwsdl).
  rewrite (from_environment_falsy _ _ _ _ Hkey). reflexivity.
Qed.

(** Were [os] imported, the missing variable would surface as [KeyError]. *)
Lemma Session_init_in_missing_wsdl globals wsdl api_key timeout w :
  "os" ∈ globals →
  truthy wsdl = false →
  environ w !! "NRE_LDBWS_WSDL" = None →
  Session_init_in Client globals wsdl api_key timeout w
  = (Raise (mkExn KeyError "NRE_LDBWS_WSDL"), w).
Proof.
  intros Hos Hwsdl Henv. unfold Session_init_in, mbind, M_bind.
  rewrite (from_environment_missing _ _ _ _ _ Hos Hwsdl Henv). reflexivity.
Qed.

Lemma Session_init_in_missing_api_key globals wsdl api_key timeout w :
  "os" ∈ globals →
  truthy wsdl = true →
  truthy api_key = false →
  environ w !! "NRE_LDBWS_API_KEY" = None →
  Session_init_in Client globals wsdl api_key timeout w
  = (Raise (mkExn KeyError "NRE_LDBWS_API_KEY"), w).
Proof.
  intros Hos Hwsdl Hkey Henv. unfold Session_init_in, mbind, M_bind.
  rewrite (from_environment_truthy _ _ _ _ _ Hwsdl).
  rewrite (from_environment_missing _ _ _ _ _ Hos Hkey Henv). reflexivity.
Qed.

(** With both arguments given, the session carries the token in its SOAP
    headers and the port of the client. *)
Lemma Session_init_explicit wsdl api_key timeout client w :
  truthy wsdl = true →
  truthy api_key = true →
  Client wsdl = Return client →
  ∃ self,
    Session_init Client wsdl api_key timeout w = (Return self, w) ∧
    _service self = service_LDBServiceSoap _ client ∧
    opt_timeout _ (_soap_client self) = Some timeout ∧
    opt_soapheaders _ (_soap_client self)
    = Some (mkElement "AccessToken" LDBWS_NAMESPACE None
              [mkElement "TokenValue" LDBWS_NAMESPACE (Some api_key) []]).
Proof.
  intros Hwsdl Hkey Hclient. eexists. split.
  - unfold Session_init, Session_init_in, mbind, M_bind.
    rewrite (from_environment_truthy _ _ _ _ _ Hwsdl).
    rewrite (from_environment_truthy _ _ _ _ _ Hkey).
    unfold lift. rewrite Hclient. reflexivity.
  - repeat split.
Qed.

(** C1 (the code departs from the claim): with no [wsdl] argument and an
    empty environment, [Session.__init__] raises [NameError], not the
    [ValueError] of its docstring: [os] is not imported by the module, and
    the handler of line 49 catches [AttributeError] only. *)
Theorem C1_missing_wsdl_raises_NameError :
  Session_init Client default_wsdl (VStr "0123-4567") default_timeout quiet_world
  = (Raise (mkExn NameError "name 'os' is not defined"), quiet_world).
Proof. apply Session_init_falsy_wsdl. reflexivity. Qed.

(** C2 (the code departs from the claim): with a [wsdl] argument, no
    [api_key] argument and an empty environment, [Session.__init__] raises
    [NameError] at line 54, not the [ValueError] of its docstring. *)
Theorem C2_missing_api_key_raises_NameError :
  Session_init Client sample_wsdl default_api_key default_timeout quiet_world
  = (Raise (mkExn NameError "name 'os' is not defined"), quiet_world).
Proof. apply Session_init_falsy_api_key; reflexivity. Qed.

End InitProperties.

(** ** The dictionary of parameters *)

(** The binding of every key, in terms of the arguments. *)
Lemma sent_params_lookup crs rows from_filter_crs to_filter_crs
    time_offset time_window (k : string) :
  sent_params crs rows from_filter_crs to_filter_crs time_offset time_window !! k =
    if decide (k = "timeWindow") then
      (if is_not_None time_window then Some time_window else None)
    else if decide (k = "timeOffset") then
      (if is_not_None time_offset then Some time_offset else None)
    else if decide (k = "filterType") then
      (if truthy to_filter_crs then Some (VStr "to")
       else if truthy from_filter_crs then Some (VStr "from") else None)
    else if decide (k = "filterCrs") then
      (if truthy to_filter_crs then Some to_filter_crs
       else if truthy from_filter_crs then Some from_filter_crs else None)
    else if decide (k = "numRows") then Some rows
    else if decide (k = "crs") then Some crs
    else None.
Proof.
  unfold sent_params.
  destruct (is_not_None time_window), (is_not_None time_offset),
    (truthy to_filter_crs), (truthy from_filter_crs);
    repeat case_decide; subst; simplify_map_eq; try reflexivity; congruence.
Qed.

Lemma sent_params_crs crs rows f t o n :
  sent_params crs rows f t o n !! "crs" = Some crs.
Proof. rewrite sent_params_lookup. reflexivity. Qed.

Lemma sent_params_numRows crs rows f t o n :
  sent_params crs rows f t o n !! "numRows" = Some rows.
Proof. rewrite sent_params_lookup. reflexivity. Qed.

Lemma sent_params_filterCrs crs rows f t o n :
  sent_params crs rows f t o n !! "filterCrs"
  = if truthy t then Some t else if truthy f then Some f else None.
Proof. rewrite sent_params_lookup. reflexivity. Qed.

Lemma sent_params_filterType crs rows f t o n :
  sent_params crs rows f t o n !! "filterType"
  = if truthy t then Some (VStr "to")
    else if truthy f then Some (VStr "from") else None.
Proof. rewrite sent_params_lookup. reflexivity. Qed.

Lemma sent_params_timeOffset crs rows f t o n :
  sent_params crs rows f t o n !! "timeOffset"
  = if is_not_None o then Some o else None.
Proof. rewrite sent_params_lookup. reflexivity. Qed.

Lemma sent_params_timeWindow crs rows f t o n :
  sent_params crs rows f t o n !! "timeWindow"
  = if is_not_None n then Some n else None.
Proof. rewrite sent_params_lookup. reflexivity. Qed.

Lemma is_not_None_iff v : is_not_None v = true ↔ v ≠ VNone.
Proof. destruct v; simpl; split; congruence. Qed.

(** With a "to" filter, the "from" argument is not read. *)
Lemma sent_params_from_dropped crs rows f f' t o n :
  truthy t = true →
  sent_params crs rows f t o n = sent_params crs rows f' t o n.
Proof. intros Ht. unfold sent_params. rewrite Ht. reflexivity. Qed.

(** ** What a call does *)

Section BoardProperties.

Context {soap_response StationBoard : Type}.
Variable StationBoard_new : soap_response → Outcome StationBoard.
Variable self : Session soap_response.

(** With no inclusion flag, the call raises and the world is as before. *)
Lemma get_station_board_rejects crs rows dep arr f t o n w :
  selected_operation dep arr = None →
  get_station_board StationBoard_new self crs rows dep arr f t o n w
  = (Raise (mkExn ValueError ERR_NO_BOARD), w).
Proof.
  unfold selected_operation, get_station_board, mbind, M_bind.
  destruct (truthy dep), (truthy arr); simpl; intros H;
    try discriminate H; reflexivity.
Qed.

(** With an inclusion flag, exactly one request goes out: the selected
    operation on the dictionary [sent_params]; the warning is logged when
    both filters are given; the outcome is the wrapped answer. *)
Lemma get_station_board_sends crs rows dep arr f t o n w op :
  selected_operation dep arr = Some op →
  get_station_board StationBoard_new self crs rows dep arr f t o n w
  = (wrapped StationBoard_new (_service self op (sent_params crs rows f t o n)),
     {| environ := environ w;
        warnings := warnings w ++ sent_warnings f t;
        requests := requests w ++ [(op, sent_params crs rows f t o n)] |}).
Proof.
  unfold selected_operation, get_station_board, sent_params, sent_warnings,
    wrapped, invoke, log_warn, lift, raise, mbind, M_bind, mret, M_ret.
  destruct (truthy dep), (truthy arr); simpl; intros [= <-];
    destruct (truthy t), (truthy f); simpl; rewrite ?app_nil_r;
    destruct (_service self _ _); reflexivity.
Qed.

Lemma selected_operation_some dep arr :
  truthy dep || truthy arr = true → ∃ op, selected_operation dep arr = Some op.
Proof.
  unfold selected_operation.
  destruct (truthy dep), (truthy arr); simpl; intros H; try discriminate H; eauto.
Qed.

(** The same, as the observations that the claims are stated with. *)
Lemma get_station_board_request crs rows dep arr f t o n w :
  truthy dep || truthy arr = true →
  let r := get_station_board StationBoard_new self crs rows dep arr f t o n w in
  ∃ op,
    selected_operation dep arr = Some op ∧
    fst r = wrapped StationBoard_new (_service self op (sent_params crs rows f t o n)) ∧
    warnings (snd r) = warnings w ++ sent_warnings f t ∧
    requests (snd r) = requests w ++ [(op, sent_params crs rows f t o n)].
Proof.
  intros Hflag. destruct (selected_operation_some _ _ Hflag) as [op Hop].
  exists op. rewrite (get_station_board_sends _ _ _ _ _ _ _ _ _ _ Hop).
  simpl. auto.
Qed.

(** C3: the inclusion flags select the operation that is invoked: both give
    GetArrivalDepartureBoard, departures alone GetDepartureBoard, arrivals
    alone GetArrivalBoard, and neither makes the call fail with the
    validation error. *)
Theorem C3_operation_selection crs rows (include_departures include_arrivals : bool)
    f t o n w :
  let r := get_station_board StationBoard_new self crs rows
             (VBool include_departures) (VBool include_arrivals) f t o n w in
  match include_departures, include_arrivals with
  | true, true =>
      ∃ params, requests (snd r) = requests w ++ [(GetArrivalDepartureBoard, params)]
  | true, false =>
      ∃ params, requests (snd r) = requests w ++ [(GetDepartureBoard, params)]
  | false, true =>
      ∃ params, requests (snd r) = requests w ++ [(GetArrivalBoard, params)]
  | false, false =>
      fst r = Raise (mkExn ValueError ERR_NO_BOARD)
  end.
Proof.
  destruct include_departures, include_arrivals; cbv zeta.
  - erewrite get_station_board_sends by reflexivity. simpl. eauto.
  - erewrite get_station_board_sends by reflexivity. simpl. eauto.
  - erewrite get_station_board_sends by reflexivity. simpl. eauto.
  - rewrite get_station_board_rejects by reflexivity. reflexivity.
Qed.

(** C4: with include_departures and include_arrivals both false, the call
    raises ValueError and no request has gone to the server (nor has
    anything been logged). *)
Theorem C4_no_flag_no_request crs rows f t o n w :
  let r := get_station_board StationBoard_new self crs rows
             (VBool false) (VBool false) f t o n w in
  fst r = Raise (mkExn ValueError ERR_NO_BOARD) ∧
  requests (snd r) = requests w ∧
  snd r = w.
Proof.
  cbv zeta. rewrite get_station_board_rejects by reflexivity. auto.
Qed.

(** C5 (amended): when both filters are supplied and the request goes out,
    the dictionary binds filterCrs to the to_filter_crs value and filterType
    to "to", the warning is logged, and the from_filter_crs argument is not
    read: the call does the same for every supplied from_filter_crs, and the
    from value occurs in the dictionary only where it equals another value
    that was put there (crs, rows, to_filter_crs, the tag "to", time_offset
    or time_window). *)
Theorem C5_to_filter_wins crs rows dep arr from_filter_crs to_filter_crs o n w :
  truthy dep || truthy arr = true →
  truthy from_filter_crs = true →
  truthy to_filter_crs = true →
  let r := get_station_board StationBoard_new self crs rows dep arr
             from_filter_crs to_filter_crs o n w in
  ∃ op params,
    requests (snd r) = requests w ++ [(op, params)] ∧
    params !! "filterCrs" = Some to_filter_crs ∧
    params !! "filterType" = Some (VStr "to") ∧
    warnings (snd r) = warnings w ++ [WARN_BOTH_FILTERS] ∧
    (∀ from', truthy from' = true →
       get_station_board StationBoard_new self crs rows dep arr
         from' to_filter_crs o n w = r) ∧
    (occurs_in from_filter_crs params →
       from_filter_crs = crs ∨ from_filter_crs = rows ∨
       from_filter_crs = to_filter_crs ∨ from_filter_crs = VStr "to" ∨
       from_filter_crs = o ∨ from_filter_crs = n).
Proof.
  intros Hflag Hfrom Hto r.
  destruct (get_station_board_request crs rows dep arr from_filter_crs
              to_filter_crs o n w Hflag) as (op & Hop & _ & Hwarn & Hreq).
  fold r in Hwarn, Hreq.
  exists op, (sent_params crs rows from_filter_crs to_filter_crs o n).
  split; [exact Hreq |].
  split; [rewrite sent_params_filterCrs, Hto; reflexivity |].
  split; [rewrite sent_params_filterType, Hto; reflexivity |].
  split; [rewrite Hwarn; unfold sent_warnings; rewrite Hto, Hfrom; reflexivity |].
  split.
  - intros from' Hfrom'. unfold r.
    rewrite !(get_station_board_sends _ _ _ _ _ _ _ _ _ _ Hop).
    unfold sent_warnings. rewrite Hto, Hfrom, Hfrom'. simpl.
    rewrite (sent_params_from_dropped crs rows from' from_filter_crs _ o n Hto).
    reflexivity.
  - intros [k Hk]. rewrite sent_params_lookup, Hto in Hk.
    repeat case_decide; try discriminate Hk;
      try (destruct (is_not_None _); [| discriminate Hk]);
      injection Hk as Hk; auto 10.
Qed.

(** C6: the dictionary that goes out always binds crs and numRows;
    filterCrs and filterType are bound exactly when a filter station was
    supplied (a value that the tests of lines 131 and 136 take as true);
    timeOffset and timeWindow are bound exactly when time_offset and
    time_window are not None, to the value given, whatever it is. *)
Theorem C6_mapping_keys crs rows dep arr from_filter_crs to_filter_crs
    time_offset time_window w :
  truthy dep || truthy arr = true →
  let r := get_station_board StationBoard_new self crs rows dep arr
             from_filter_crs to_filter_crs time_offset time_window w in
  ∃ op params,
    requests (snd r) = requests w ++ [(op, params)] ∧
    params !! "crs" = Some crs ∧
    params !! "numRows" = Some rows ∧
    (is_Some (params !! "filterCrs")
       ↔ truthy from_filter_crs = true ∨ truthy to_filter_crs = true) ∧
    (is_Some (params !! "filterType")
       ↔ truthy from_filter_crs = true ∨ truthy to_filter_crs = true) ∧
    (is_Some (params !! "timeOffset") ↔ time_offset ≠ VNone) ∧
    (is_Some (params !! "timeWindow") ↔ time_window ≠ VNone) ∧
    (time_offset ≠ VNone → params !! "timeOffset" = Some time_offset) ∧
    (time_window ≠ VNone → params !! "timeWindow" = Some time_window).
Proof.
  intros Hflag r.
  destruct (get_station_board_request crs rows dep arr from_filter_crs
              to_filter_crs time_offset time_window w Hflag)
    as (op & _ & _ & _ & Hreq).
  fold r in Hreq.
  exists op, (sent_params crs rows from_filter_crs to_filter_crs
                time_offset time_window).
  rewrite sent_params_crs, sent_params_numRows, sent_params_filterCrs,
    sent_params_filterType, sent_params_timeOffset, sent_params_timeWindow.
  rewrite <- !is_not_None_iff.
  repeat split; try exact Hreq;
    destruct (truthy from_filter_crs), (truthy to_filter_crs),
      (is_not_None time_offset), (is_not_None time_window);
    try (intros [H | H]); try intros H; try discriminate H; eauto;
    try (destruct H as [? H]; discriminate H).
Qed.

(** C7: get_station_board(crs="PAD", rows=5, include_departures=True), the
    other arguments at their defaults, sends exactly one request:
    GetDepartureBoard on the dictionary {crs: "PAD", numRows: 5}; no filter
    key and no time key is bound, and nothing is logged. *)
Theorem C7_departures_example w :
  let r := get_station_board StationBoard_new self (VStr "PAD") (VInt 5)
             (VBool true) default_include_arrivals
             default_from_filter_crs default_to_filter_crs
             default_time_offset default_time_window w in
  let params : gmap string pyval :=
    {[ "crs" := VStr "PAD"; "numRows" := VInt 5 ]} in
  requests (snd r) = requests w ++ [(GetDepartureBoard, params)] ∧
  params !! "filterCrs" = None ∧ params !! "filterType" = None ∧
  params !! "timeOffset" = None ∧ params !! "timeWindow" = None ∧
  warnings (snd r) = warnings w.
Proof.
  cbv zeta. erewrite get_station_board_sends by reflexivity. simpl.
  rewrite app_nil_r.
  split; [do 3 f_equal; vm_compute; reflexivity |].
  repeat split.
Qed.

(** C8: when the request raises a fault, the call raises that same
    exception: nothing between the request and the caller catches, wraps or
    replaces it. *)
Theorem C8_fault_propagates crs rows dep arr f t o n w op params e :
  let r := get_station_board StationBoard_new self crs rows dep arr f t o n w in
  requests (snd r) = requests w ++ [(op, params)] →
  _service self op params = Raise e →
  fst r = Raise e.
Proof.
  intros r Hreq Hfault.
  destruct (truthy dep || truthy arr) eqn:Hflag.
  - destruct (get_station_board_request crs rows dep arr f t o n w Hflag)
      as (op' & _ & Hout & _ & Hreq').
    fold r in Hout, Hreq'. rewrite Hreq' in Hreq.
    apply app_inv_head in Hreq. injection Hreq as Hop Hparams.
    rewrite Hout, Hop, Hparams, Hfault. reflexivity.
  - exfalso. unfold r in Hreq.
    rewrite get_station_board_rejects in Hreq.
    + simpl in Hreq. rewrite <- (app_nil_r (requests w)) in Hreq at 1.
      apply app_inv_head in Hreq. discriminate Hreq.
    + unfold selected_operation.
      destruct (truthy dep), (truthy arr); try discriminate Hflag; reflexivity.
Qed.

(** C9: an empty filter station counts as none.  A call with an empty
    string for a filter does what the call with None does; with
    to_filter_crs="" and from_filter_crs supplied the "from" filter goes
    out; with both filters empty or None neither filterCrs nor filterType
    is bound, and no warning is logged. *)
Theorem C9_empty_filter_is_absent crs rows dep arr o n w :
  truthy dep || truthy arr = true →
  let call := get_station_board StationBoard_new self crs rows dep arr in
  (∀ f, call f (VStr "") o n w = call f VNone o n w) ∧
  (∀ t, call (VStr "") t o n w = call VNone t o n w) ∧
  (∀ f, truthy f = true →
     ∃ op params,
       requests (snd (call f (VStr "") o n w)) = requests w ++ [(op, params)] ∧
       params !! "filterCrs" = Some f ∧
       params !! "filterType" = Some (VStr "from") ∧
       warnings (snd (call f (VStr "") o n w)) = warnings w) ∧
  (∀ f t, f = VNone ∨ f = VStr "" → t = VNone ∨ t = VStr "" →
     ∃ op params,
       requests (snd (call f t o n w)) = requests w ++ [(op, params)] ∧
       params !! "filterCrs" = None ∧
       params !! "filterType" = None ∧
       warnings (snd (call f t o n w)) = warnings w).
Proof.
  intros Hflag call. unfold call.
  destruct (selected_operation_some _ _ Hflag) as [op Hop].
  split; [| split; [| split]].
  - intros f. rewrite !(get_station_board_sends _ _ _ _ _ _ _ _ _ _ Hop).
    reflexivity.
  - intros t. rewrite !(get_station_board_sends _ _ _ _ _ _ _ _ _ _ Hop).
    unfold sent_params, sent_warnings. simpl.
    destruct (truthy t); reflexivity.
  - intros f Hf. exists op, (sent_params crs rows f (VStr "") o n).
    rewrite (get_station_board_sends _ _ _ _ _ _ _ _ _ _ Hop).
    rewrite sent_params_filterCrs, sent_params_filterType. simpl.
    rewrite Hf, app_nil_r. auto.
  - intros f t Hf Ht. exists op, (sent_params crs rows f t o n).
    rewrite (get_station_board_sends _ _ _ _ _ _ _ _ _ _ Hop).
    rewrite sent_params_filterCrs, sent_params_filterType.
    unfold sent_warnings.
    destruct Hf as [-> | ->], Ht as [-> | ->]; simpl; rewrite app_nil_r; auto.
Qed.

(** C10: no range is checked.  Whatever integers are given for rows,
    time_offset and time_window (inside or outside 1..150 and -120..120),
    the request goes out with numRows, timeOffset and timeWindow bound to
    them unchanged, and the outcome of the call is that of the request: no
    error is raised before it. *)
Theorem C10_no_range_validation crs (rows time_offset time_window : Z)
    dep arr f t w :
  truthy dep || truthy arr = true →
  let r := get_station_board StationBoard_new self crs (VInt rows) dep arr f t
             (VInt time_offset) (VInt time_window) w in
  ∃ op params,
    requests (snd r) = requests w ++ [(op, params)] ∧
    params !! "numRows" = Some (VInt rows) ∧
    params !! "timeOffset" = Some (VInt time_offset) ∧
    params !! "timeWindow" = Some (VInt time_window) ∧
    fst r = wrapped StationBoard_new (_service self op params).
Proof.
  intros Hflag r.
  destruct (get_station_board_request crs (VInt rows) dep arr f t
              (VInt time_offset) (VInt time_window) w Hflag)
    as (op & _ & Hout & _ & Hreq).
  fold r in Hout, Hreq.
  exists op, (sent_params crs (VInt rows) f t (VInt time_offset) (VInt time_window)).
  rewrite sent_params_numRows, sent_params_timeOffset, sent_params_timeWindow.
  auto.
Qed.

End BoardProperties.

(** ** The properties at concrete calls *)

(** The second example of the specification: crs="PAD", to_filter_crs="RDG",
    time_offset=-30, time_window=60 and the defaults elsewhere. *)
Example filtered_window_example :
  requests (snd (get_station_board board_of (session_of answering_port)
                   (VStr "PAD") default_rows default_include_departures
                   default_include_arrivals default_from_filter_crs (VStr "RDG")
                   (VInt (-30)) (VInt 60) quiet_world))
  = [(GetDepartureBoard,
      {[ "crs" := VStr "PAD"; "numRows" := VInt 10; "filterCrs" := VStr "RDG";
         "filterType" := VStr "to"; "timeOffset" := VInt (-30);
         "timeWindow" := VInt 60 ]})].
Proof. vm_compute. reflexivity. Qed.

(** With no inclusion flag the call raises before line 131: filters given
    together are not even warned about. *)
Example both_filters_no_flag :
  get_station_board board_of (session_of answering_port)
    (VStr "PAD") default_rows (VBool false) (VBool false)
    (VStr "EUS") (VStr "RDG") default_time_offset default_time_window quiet_world
  = (Raise (mkExn ValueError ERR_NO_BOARD), quiet_world).
Proof. reflexivity. Qed.

(** C5 as first stated fails: at from_filter_crs="RDG", to_filter_crs="RDG"
    the dictionary that goes out binds filterCrs to "RDG", so the value of
    from_filter_crs does occur in it. *)
Lemma C5_from_value_occurs :
  let from_filter_crs := VStr "RDG" in
  let r := get_station_board board_of (session_of answering_port)
             (VStr "PAD") default_rows default_include_departures
             default_include_arrivals from_filter_crs (VStr "RDG")
             default_time_offset default_time_window quiet_world in
  ∃ params,
    requests (snd r) = [(GetDepartureBoard, params)] ∧
    params !! "filterCrs" = Some from_filter_crs ∧
    occurs_in from_filter_crs params.
Proof.
  cbv zeta.
  exists (sent_params (VStr "PAD") default_rows (VStr "RDG") (VStr "RDG")
            default_time_offset default_time_window).
  split; [reflexivity |].
  split; [reflexivity |].
  exists "filterCrs". reflexivity.
Defined.

Lemma C5_to_filter_wins_witness :
  let r := get_station_board board_of (session_of answering_port)
             (VStr "PAD") default_rows default_include_departures
             default_include_arrivals (VStr "EUS") (VStr "RDG")
             default_time_offset default_time_window quiet_world in
  truthy default_include_departures || truthy default_include_arrivals = true ∧
  truthy (VStr "EUS") = true ∧
  truthy (VStr "RDG") = true ∧
  ∃ op params,
    requests (snd r) = requests quiet_world ++ [(op, params)] ∧
    params !! "filterCrs" = Some (VStr "RDG") ∧
    params !! "filterType" = Some (VStr "to") ∧
    warnings (snd r) = warnings quiet_world ++ [WARN_BOTH_FILTERS] ∧
    (∀ from', truthy from' = true →
       get_station_board board_of (session_of answering_port)
         (VStr "PAD") default_rows default_include_departures
         default_include_arrivals from' (VStr "RDG")
         default_time_offset default_time_window quiet_world = r) ∧
    (occurs_in (VStr "EUS") params →
       VStr "EUS" = VStr "PAD" ∨ VStr "EUS" = default_rows ∨
       VStr "EUS" = VStr "RDG" ∨ VStr "EUS" = VStr "to" ∨
       VStr "EUS" = default_time_offset ∨ VStr "EUS" = default_time_window).
Proof.
  cbv zeta.
  split; [reflexivity |]. split; [reflexivity |]. split; [reflexivity |].
  apply (C5_to_filter_wins board_of (session_of answering_port)
           (VStr "PAD") default_rows default_include_departures
           default_include_arrivals (VStr "EUS") (VStr "RDG")
           default_time_offset default_time_window quiet_world);
    reflexivity.
Defined.

(** time_offset=0 and time_window=120 are the defaults of the server; given
    explicitly, they are sent. *)
Lemma C6_mapping_keys_witness :
  let r := get_station_board board_of (session_of answering_port)
             (VStr "PAD") default_rows default_include_departures
             default_include_arrivals default_from_filter_crs (VStr "RDG")
             (VInt 0) (VInt 120) quiet_world in
  truthy default_include_departures || truthy default_include_arrivals = true ∧
  ∃ op params,
    requests (snd r) = requests quiet_world ++ [(op, params)] ∧
    params !! "crs" = Some (VStr "PAD") ∧
    params !! "numRows" = Some default_rows ∧
    (is_Some (params !! "filterCrs")
       ↔ truthy default_from_filter_crs = true ∨ truthy (VStr "RDG") = true) ∧
    (is_Some (params !! "filterType")
       ↔ truthy default_from_filter_crs = true ∨ truthy (VStr "RDG") = true) ∧
    (is_Some (params !! "timeOffset") ↔ VInt 0 ≠ VNone) ∧
    (is_Some (params !! "timeWindow") ↔ VInt 120 ≠ VNone) ∧
    (VInt 0 ≠ VNone → params !! "timeOffset" = Some (VInt 0)) ∧
    (VInt 120 ≠ VNone → params !! "timeWindow" = Some (VInt 120)).
Proof.
  cbv zeta. split; [reflexivity |].
  apply (C6_mapping_keys board_of (session_of answering_port)
           (VStr "PAD") default_rows default_include_departures
           default_include_arrivals default_from_filter_crs (VStr "RDG")
           (VInt 0) (VInt 120) quiet_world).
  reflexivity.
Defined.

Lemma C8_fault_propagates_witness :
  let params := sent_params (VStr "PAD") default_rows default_from_filter_crs
                  default_to_filter_crs default_time_offset default_time_window in
  let r := get_station_board board_of (session_of faulting_port)
             (VStr "PAD") default_rows default_include_departures
             default_include_arrivals default_from_filter_crs
             default_to_filter_crs default_time_offset default_time_window
             quiet_world in
  requests (snd r) = requests quiet_world ++ [(GetDepartureBoard, params)] ∧
  _service (session_of faulting_port) GetDepartureBoard params = Raise fault ∧
  fst r = Raise fault.
Proof.
  cbv zeta. split; [reflexivity |]. split; [reflexivity |].
  apply (C8_fault_propagates board_of (session_of faulting_port)
           (VStr "PAD") default_rows default_include_departures
           default_include_arrivals default_from_filter_crs
           default_to_filter_crs default_time_offset default_time_window
           quiet_world GetDepartureBoard
           (sent_params (VStr "PAD") default_rows default_from_filter_crs
              default_to_filter_crs default_time_offset default_time_window)
           fault);
    reflexivity.
Defined.

Lemma C9_empty_filter_is_absent_witness :
  let call := get_station_board board_of (session_of answering_port)
                (VStr "PAD") default_rows default_include_departures
                default_include_arrivals in
  truthy default_include_departures || truthy default_include_arrivals = true ∧
  (∃ op params,
     requests (snd (call (VStr "EUS") (VStr "") VNone VNone quiet_world))
     = requests quiet_world ++ [(op, params)] ∧
     params !! "filterCrs" = Some (VStr "EUS") ∧
     params !! "filterType" = Some (VStr "from") ∧
     warnings (snd (call (VStr "EUS") (VStr "") VNone VNone quiet_world))
     = warnings quiet_world) ∧
  (∃ op params,
     requests (snd (call (VStr "") VNone VNone VNone quiet_world))
     = requests quiet_world ++ [(op, params)] ∧
     params !! "filterCrs" = None ∧
     params !! "filterType" = None ∧
     warnings (snd (call (VStr "") VNone VNone VNone quiet_world))
     = warnings quiet_world).
Proof.
  cbv zeta.
  pose proof (C9_empty_filter_is_absent board_of (session_of answering_port)
                (VStr "PAD") default_rows default_include_departures
                default_include_arrivals VNone VNone quiet_world eq_refl)
    as (_ & _ & Hfrom & Hnone).
  split; [reflexivity |]. split.
  - apply (Hfrom (VStr "EUS")). reflexivity.
  - apply (Hnone (VStr "") VNone); auto.
Defined.

(** rows=500, time_offset=-1000 and time_window=9999 are all out of range. *)
Lemma C10_no_range_validation_witness :
  let r := get_station_board board_of (session_of answering_port)
             (VStr "PAD") (VInt 500) default_include_departures
             default_include_arrivals default_from_filter_crs
             default_to_filter_crs (VInt (-1000)) (VInt 9999) quiet_world in
  truthy default_include_departures || truthy default_include_arrivals = true ∧
  ∃ op params,
    requests (snd r) = requests quiet_world ++ [(op, params)] ∧
    params !! "numRows" = Some (VInt 500) ∧
    params !! "timeOffset" = Some (VInt (-1000)) ∧
    params !! "timeWindow" = Some (VInt 9999) ∧
    fst r = wrapped board_of (_service (session_of answering_port) op params).
Proof.
  cbv zeta. split; [reflexivity |].
  apply (C10_no_range_validation board_of (session_of answering_port)
           (VStr "PAD") 500 (-1000) 9999 default_include_departures
           default_include_arrivals default_from_filter_crs
           default_to_filter_crs quiet_world).
  reflexivity.
Defined.

(** * Further properties of the initializer *)

Section InitMore.

Context {soap_response : Type}.
Variable Client : pyval → Outcome (SoapClient soap_response).

(** The session that lines 58-68 build from a client, an API key and a
    timeout. *)
Lemma Session_init_both_truthy wsdl api_key timeout w :
  truthy wsdl = true →
  truthy api_key = true →
  Session_init Client wsdl api_key timeout w
  = (match Client wsdl with
     | Return client =>
         Return
           (mkSession
              (mkSoapClient (service_LDBServiceSoap _ client) (Some timeout)
                 (Some (mkElement "AccessToken" LDBWS_NAMESPACE None
                          [mkElement "TokenValue" LDBWS_NAMESPACE
                             (Some api_key) []])))
              (service_LDBServiceSoap _ client))
     | Raise e => Raise e
     end, w).
Proof.
  intros Hwsdl Hkey. unfold Session_init, Session_init_in, mbind, M_bind.
  rewrite (from_environment_truthy _ _ _ _ _ Hwsdl).
  rewrite (from_environment_truthy _ _ _ _ _ Hkey).
  unfold lift. destruct (Client wsdl); reflexivity.
Qed.

Lemma Session_init_some_falsy wsdl api_key timeout w :
  truthy wsdl = false ∨ truthy api_key = false →
  Session_init Client wsdl api_key timeout w
  = (Raise (mkExn NameError "name 'os' is not defined"), w).
Proof.
  intros [Hwsdl | Hkey].
  - apply Session_init_falsy_wsdl, Hwsdl.
  - destruct (truthy wsdl) eqn:Hwsdl.
    + apply Session_init_falsy_api_key; assumption.
    + apply Session_init_falsy_wsdl, Hwsdl.
Qed.



(** The environment is never read: the outcome of the initializer is the
    same in every world, whatever [os.environ] holds, and the world is left
    as it was. *)
Theorem Session_init_ignores_environment wsdl api_key timeout w1 w2 :
  fst (Session_init Client wsdl api_key timeout w1)
  = fst (Session_init Client wsdl api_key timeout w2) ∧
  snd (Session_init Client wsdl api_key timeout w1) = w1.
Proof.
  destruct (truthy wsdl) eqn:Hwsdl; [destruct (truthy api_key) eqn:Hkey |].
  - rewrite !(Session_init_both_truthy _ _ _ _ Hwsdl Hkey). auto.
  - rewrite !Session_init_some_falsy by auto. auto.
  - rewrite !Session_init_some_falsy by auto. auto.
Qed.

End InitMore.

(** * Further properties of the board query *)

Section BoardMore.

Context {soap_response StationBoard : Type}.
Variable StationBoard_new : soap_response → Outcome StationBoard.
Variable self : Session soap_response.

Lemma selected_operation_none dep arr :
  truthy dep || truthy arr = false → selected_operation dep arr = None.
Proof.
  unfold selected_operation.
  destruct (truthy dep), (truthy arr); simpl; intros H; try discriminate H;
    reflexivity.
Qed.

(** A call sends one request when an inclusion flag is set and none
    otherwise, whatever the server then answers; the requests sent before
    stay in place. *)
Theorem get_station_board_request_count crs rows dep arr f t o n w :
  let r := get_station_board StationBoard_new self crs rows dep arr f t o n w in
  length (requests (snd r))
  = (length (requests w) + (if truthy dep || truthy arr then 1 else 0))%nat ∧
  requests w `prefix_of` requests (snd r).
Proof.
  cbv zeta. destruct (truthy dep || truthy arr) eqn:Hflag.
  - destruct (selected_operation_some _ _ Hflag) as [op Hop].
    rewrite (get_station_board_sends _ _ _ _ _ _ _ _ _ _ _ _ Hop). simpl.
    rewrite length_app. simpl. split; [reflexivity |].
    apply prefix_app_r. reflexivity.
  - rewrite get_station_board_rejects by (apply selected_operation_none, Hflag).
    simpl. split; [lia | reflexivity].
Qed.

(** The flags are tested for truth, not compared with True: any two values
    with the truth values of the flags give the same call. *)
Theorem get_station_board_flags_by_truth crs rows dep arr f t o n w :
  get_station_board StationBoard_new self crs rows dep arr f t o n w
  = get_station_board StationBoard_new self crs rows
      (VBool (truthy dep)) (VBool (truthy arr)) f t o n w.
Proof.
  unfold get_station_board. reflexivity.
Qed.

(** The log of a call: the one warning, when a request goes out with both
    filters given; nothing otherwise. *)
Theorem get_station_board_log crs rows dep arr f t o n w :
  let r := get_station_board StationBoard_new self crs rows dep arr f t o n w in
  warnings (snd r)
  = warnings w ++
    (if (truthy dep || truthy arr) && truthy f && truthy t
     then [WARN_BOTH_FILTERS] else []).
Proof.
  cbv zeta. destruct (truthy dep || truthy arr) eqn:Hflag.
  - destruct (selected_operation_some _ _ Hflag) as [op Hop].
    rewrite (get_station_board_sends _ _ _ _ _ _ _ _ _ _ _ _ Hop). simpl.
    unfold sent_warnings. destruct (truthy f), (truthy t); reflexivity.
  - rewrite get_station_board_rejects by (apply selected_operation_none, Hflag).
    simpl. rewrite app_nil_r. reflexivity.
Qed.

(** The dictionary that goes out binds no key but the six of lines 129-142,
    and never binds an optional one to an absent value: a filterCrs is a
    value that tests true, a filterType is "to" or "from" ("to" exactly when
    to_filter_crs was given), and a timeOffset or timeWindow is not None. *)
Theorem get_station_board_params_wellformed crs rows dep arr f t o n w :
  truthy dep || truthy arr = true →
  let r := get_station_board StationBoard_new self crs rows dep arr f t o n w in
  ∃ op params,
    requests (snd r) = requests w ++ [(op, params)] ∧
    (∀ k, is_Some (params !! k) →
       k ∈ ["crs"; "numRows"; "filterCrs"; "filterType"; "timeOffset";
            "timeWindow"]) ∧
    (∀ v, params !! "filterCrs" = Some v → truthy v = true) ∧
    (∀ v, params !! "filterType" = Some v →
       (v = VStr "to" ∧ truthy t = true) ∨
       (v = VStr "from" ∧ truthy t = false ∧ truthy f = true)) ∧
    (∀ v, params !! "timeOffset" = Some v → v ≠ VNone) ∧
    (∀ v, params !! "timeWindow" = Some v → v ≠ VNone).
Proof.
  intros Hflag r.
  destruct (get_station_board_request StationBoard_new self crs rows dep arr
              f t o n w Hflag) as (op & _ & _ & _ & Hreq).
  fold r in Hreq. exists op, (sent_params crs rows f t o n).
  split; [exact Hreq |].
  rewrite sent_params_filterCrs, sent_params_filterType,
    sent_params_timeOffset, sent_params_timeWindow.
  split; [| split; [| split; [| split]]].
  - intros k [v Hk]. rewrite sent_params_lookup in Hk.
    repeat (case_decide; [subst k; set_solver |]). discriminate Hk.
  - intros v. destruct (truthy t) eqn:Ht; [congruence |].
    destruct (truthy f) eqn:Hf; congruence.
  - intros v. destruct (truthy t), (truthy f); intros [= <-]; auto.
  - intros v. destruct o; simpl; congruence.
  - intros v. destruct n; simpl; congruence.
Qed.

(** The dictionary does not depend on the operation: two calls that differ
    in their inclusion flags only send the same dictionary and log the
    same. *)
Theorem get_station_board_params_independent_of_flags
    crs rows dep arr dep' arr' f t o n w :
  truthy dep || truthy arr = true →
  truthy dep' || truthy arr' = true →
  let r := get_station_board StationBoard_new self crs rows dep arr f t o n w in
  let r' := get_station_board StationBoard_new self crs rows dep' arr' f t o n w in
  ∃ op op' params,
    requests (snd r) = requests w ++ [(op, params)] ∧
    requests (snd r') = requests w ++ [(op', params)] ∧
    warnings (snd r) = warnings (snd r').
Proof.
  intros Hflag Hflag' r r'.
  destruct (get_station_board_request StationBoard_new self crs rows dep arr
              f t o n w Hflag) as (op & _ & _ & Hwarn & Hreq).
  destruct (get_station_board_request StationBoard_new self crs rows dep' arr'
              f t o n w Hflag') as (op' & _ & _ & Hwarn' & Hreq').
  fold r in Hwarn, Hreq. fold r' in Hwarn', Hreq'.
  exists op, op', (sent_params crs rows f t o n).
  rewrite Hwarn, Hwarn'. auto.
Qed.

(** When the server answers, the call returns what the wrapper makes of the
    answer, and raises what the wrapper raises. *)
Theorem get_station_board_wraps_answer crs rows dep arr f t o n w op params x :
  let r := get_station_board StationBoard_new self crs rows dep arr f t o n w in
  requests (snd r) = requests w ++ [(op, params)] →
  _service self op params = Return x →
  fst r = StationBoard_new x.
Proof.
  intros r Hreq Hanswer.
  destruct (truthy dep || truthy arr) eqn:Hflag.
  - destruct (get_station_board_request StationBoard_new self crs rows dep arr
                f t o n w Hflag) as (op' & _ & Hout & _ & Hreq').
    fold r in Hout, Hreq'. rewrite Hreq' in Hreq.
    apply app_inv_head in Hreq. injection Hreq as Hop Hparams.
    rewrite Hout, Hop, Hparams, Hanswer. reflexivity.
  - exfalso. unfold r in Hreq.
    rewrite get_station_board_rejects in Hreq
      by (apply selected_operation_none, Hflag).
    simpl in Hreq. rewrite <- (app_nil_r (requests w)) in Hreq at 1.
    apply app_inv_head in Hreq. discriminate Hreq.
Qed.

(** Two calls in a row: when the first returns, both requests are in the
    trace, in order, each with the dictionary of its own arguments; the
    second call returns what it would return alone, since the session keeps
    nothing from one call to the next. *)
Theorem get_station_board_twice
    crs1 rows1 dep1 arr1 f1 t1 o1 n1 crs2 rows2 dep2 arr2 f2 t2 o2 n2 w b1 :
  let call1 := get_station_board StationBoard_new self crs1 rows1 dep1 arr1
                 f1 t1 o1 n1 in
  let call2 := get_station_board StationBoard_new self crs2 rows2 dep2 arr2
                 f2 t2 o2 n2 in
  fst (call1 w) = Return b1 →
  truthy dep2 || truthy arr2 = true →
  ∃ op1 op2,
    requests (snd ((call1 ;; call2) w))
    = requests w ++ [(op1, sent_params crs1 rows1 f1 t1 o1 n1);
                     (op2, sent_params crs2 rows2 f2 t2 o2 n2)] ∧
    selected_operation dep1 arr1 = Some op1 ∧
    selected_operation dep2 arr2 = Some op2 ∧
    fst ((call1 ;; call2) w) = fst (call2 w).
Proof.
  intros call1 call2 Hret Hflag2.
  destruct (truthy dep1 || truthy arr1) eqn:Hflag1.
  - destruct (selected_operation_some _ _ Hflag1) as [op1 Hop1].
    destruct (selected_operation_some _ _ Hflag2) as [op2 Hop2].
    exists op1, op2. unfold call1, call2 in *. unfold mbind, M_bind.
    rewrite (get_station_board_sends _ _ _ _ _ _ _ _ _ _ _ _ Hop1) in *.
    simpl in Hret. rewrite Hret.
    rewrite !(get_station_board_sends _ _ _ _ _ _ _ _ _ _ _ _ Hop2). simpl.
    rewrite <- app_assoc. auto.
  - exfalso. unfold call1 in Hret.
    rewrite get_station_board_rejects in Hret
      by (apply selected_operation_none, Hflag1).
    discriminate Hret.
Qed.

End BoardMore.

(** * A session at work *)

Section SessionAtWork.

Context {soap_response StationBoard : Type}.
Variable StationBoard_new : soap_response → Outcome StationBoard.
Variable Client : pyval → Outcome (SoapClient soap_response).


End SessionAtWork.

(** ** The further properties at concrete calls *)

(** With both variables set in the environment and no argument, the
    initializer still fails on the name [os]. *)
Example configured_environment_is_not_used :
  Session_init answering_Client default_wsdl default_api_key default_timeout
    configured_world
  = (Raise (mkExn NameError "name 'os' is not defined"), configured_world).
Proof. reflexivity. Qed.

Lemma get_station_board_params_wellformed_witness :
  let r := get_station_board board_of (session_of answering_port)
             (VStr "PAD") default_rows (VBool false) (VBool true)
             (VStr "EUS") (VStr "") (VInt 0) default_time_window quiet_world in
  truthy (VBool false) || truthy (VBool true) = true ∧
  ∃ op params,
    requests (snd r) = requests quiet_world ++ [(op, params)] ∧
    (∀ k, is_Some (params !! k) →
       k ∈ ["crs"; "numRows"; "filterCrs"; "filterType"; "timeOffset";
            "timeWindow"]) ∧
    (∀ v, params !! "filterCrs" = Some v → truthy v = true) ∧
    (∀ v, params !! "filterType" = Some v →
       (v = VStr "to" ∧ truthy (VStr "") = true) ∨
       (v = VStr "from" ∧ truthy (VStr "") = false ∧ truthy (VStr "EUS") = true)) ∧
    (∀ v, params !! "timeOffset" = Some v → v ≠ VNone) ∧
    (∀ v, params !! "timeWindow" = Some v → v ≠ VNone).
Proof.
  cbv zeta. split; [reflexivity |].
  apply (get_station_board_params_wellformed board_of
           (session_of answering_port) (VStr "PAD") default_rows
           (VBool false) (VBool true) (VStr "EUS") (VStr "") (VInt 0)
           default_time_window quiet_world).
  reflexivity.
Defined.

Lemma get_station_board_params_independent_of_flags_witness :
  let call := λ dep arr,
    get_station_board board_of (session_of answering_port)
      (VStr "PAD") default_rows dep arr (VStr "EUS") (VStr "RDG")
      (VInt 15) default_time_window quiet_world in
  truthy (VBool true) || truthy (VBool false) = true ∧
  truthy (VBool true) || truthy (VBool true) = true ∧
  ∃ op op' params,
    requests (snd (call (VBool true) (VBool false)))
    = requests quiet_world ++ [(op, params)] ∧
    requests (snd (call (VBool true) (VBool true)))
    = requests quiet_world ++ [(op', params)] ∧
    warnings (snd (call (VBool true) (VBool false)))
    = warnings (snd (call (VBool true) (VBool true))).
Proof.
  cbv zeta. split; [reflexivity |]. split; [reflexivity |].
  apply (get_station_board_params_independent_of_flags board_of
           (session_of answering_port) (VStr "PAD") default_rows
           (VBool true) (VBool false) (VBool true) (VBool true)
           (VStr "EUS") (VStr "RDG") (VInt 15) default_time_window quiet_world);
    reflexivity.
Defined.

(** The server answers, the wrapper rejects the answer: the call raises the
    exception of the wrapper. *)
Lemma get_station_board_wraps_answer_witness :
  let params := sent_params (VStr "PAD") default_rows default_from_filter_crs
                  default_to_filter_crs default_time_offset default_time_window in
  let r := get_station_board rejecting_board_of (session_of answering_port)
             (VStr "PAD") default_rows default_include_departures
             default_include_arrivals default_from_filter_crs
             default_to_filter_crs default_time_offset default_time_window
             quiet_world in
  requests (snd r) = requests quiet_world ++ [(GetDepartureBoard, params)] ∧
  _service (session_of answering_port) GetDepartureBoard params = Return "board" ∧
  fst r = Raise wrap_error.
Proof.
  cbv zeta. split; [reflexivity |]. split; [reflexivity |].
  apply (get_station_board_wraps_answer rejecting_board_of
           (session_of answering_port) (VStr "PAD") default_rows
           default_include_departures default_include_arrivals
           default_from_filter_crs default_to_filter_crs default_time_offset
           default_time_window quiet_world GetDepartureBoard
           (sent_params (VStr "PAD") default_rows default_from_filter_crs
              default_to_filter_crs default_time_offset default_time_window)
           "board");
    reflexivity.
Defined.

(** Departures from PAD to RDG, then arrivals at EUS: the second request
    carries nothing of the first. *)
Lemma get_station_board_twice_witness :
  let call1 := get_station_board board_of (session_of echoing_port)
                 (VStr "PAD") (VInt 5) (VBool true) (VBool false)
                 VNone (VStr "RDG") (VInt (-30)) VNone in
  let call2 := get_station_board board_of (session_of echoing_port)
                 (VStr "EUS") default_rows (VBool false) (VBool true)
                 VNone VNone VNone VNone in
  fst (call1 quiet_world) = Return "PAD" ∧
  truthy (VBool false) || truthy (VBool true) = true ∧
  ∃ op1 op2,
    requests (snd ((call1 ;; call2) quiet_world))
    = requests quiet_world ++
      [(op1, sent_params (VStr "PAD") (VInt 5) VNone (VStr "RDG") (VInt (-30)) VNone);
       (op2, sent_params (VStr "EUS") default_rows VNone VNone VNone VNone)] ∧
    selected_operation (VBool true) (VBool false) = Some op1 ∧
    selected_operation (VBool false) (VBool true) = Some op2 ∧
    fst ((call1 ;; call2) quiet_world) = fst (call2 quiet_world).
Proof.
  cbv zeta. split; [reflexivity |]. split; [reflexivity |].
  apply (get_station_board_twice board_of (session_of echoing_port)
           (VStr "PAD") (VInt 5) (VBool true) (VBool false)
           VNone (VStr "RDG") (VInt (-30)) VNone
           (VStr "EUS") default_rows (VBool false) (VBool true)
           VNone VNone VNone VNone quiet_world "PAD");
    reflexivity.
Defined.


(** The fetch of the WSDL fails: the initializer raises the error of the
    fetch. *)
Example failed_fetch_propagates :
  Session_init failing_Client sample_wsdl (VStr "0123-4567") default_timeout
    quiet_world
  = (Raise fetch_error, quiet_world).
Proof. reflexivity. Qed.
